(* ===== verification/_CoqProject ===== *)
-Q . S2P
Prelude.v
JsString.v
Json.v
Prompt.v
Effects.v
Branch.v
Contract.v
