(* ===== verification/Prelude.v ===== *)
(** * A verification development for GeminiBranch (src/src/index.ts)

    ** The program

    [GeminiBranch] is one asynchronous TypeScript function (src/src/index.ts,
    lines 47-113) with one helper, [fail] (lines 29-41).  Given
    [GeminiBranchOptions] (a natural-language [condition], an array of
    [choices], an [apiKey], a [model], an optional fallback [else] and an
    optional [consoleErrors] flag) it

    + validates [condition] (a string that is not blank after
      [String.prototype.trim]) and [choices] (a non-empty array), returning
      [fail(...)] early otherwise (lines 49-57);
    + renders a prompt with a template literal that embeds
      [JSON.stringify(condition)], [JSON.stringify(choices)] and, unescaped,
      [args.else ?? (empty string)] (lines 63-79);
    + awaits one call of the external Gemini client (lines 60-80);
    + trims the response text and reconciles it against the fallback and the
      choices (lines 82-103);
    + catches every exception of the block in a [try]/[catch] (lines 48,
      105-108) and, after it, returns an "Unknown error" failure (line 112)
      that no path reaches.
    [fail] builds the failure result [{response: false, result: else ?? (empty string),
    message}] and writes [message] to [console.error] when [consoleErrors].

    ** The library (files in dependency order)

    - [Prelude] (this file): the [js_scope] notation (nullish coalescing
      [??]), the development's tactics ([invc], [split_bools],
      [rewrite_eqs_in], [merge_eqs], [N_cases]), the hint databases
      [gemini] (resolution) and [gemini_rw] (rewriting), and the generic
      lemmas on lists and options the components share.
    - [JsString]: JavaScript strings as lists of UTF-16 code units ([N]),
      string literals ([lit]), [String.prototype.trim] ([StringProto]: the
      ECMA-262 WhiteSpace and LineTerminator code units, [trim_start], a
      one-pass [trim_end], [is_blank] for [s.trim() === (empty string)]),
      [Array.prototype.includes] on string arrays and the truthiness of
      strings ([ArrayProto]).  Theorems ([TrimFacts]): [trim] strips exactly
      the white space at both ends (C20); the one-pass [trim_end] equals
      the reversal-based reference of TrimString (a lemma the C20 proof
      uses).
    - [Json]: [JSON.stringify] on strings ([Stringify.quote_units]:
      QuoteJSONString with the short escapes, [\u] escapes of the other
      control characters and of lone surrogates) and on string arrays; a
      JSON reader ([Reader], the decoder a backend would apply: strings,
      arrays, objects, with fuel); theorems ([JsonFacts]): the reader
      recovers every string (C17) and every string array (C18), and no
      output of [stringify] holds a control character (C19).
    - [Prompt]: the template literal of lines 63-79 code unit by code unit
      ([Template.contents] = [prompt_intro ++ payload ++ prompt_rules]);
      theorem C16: after the fixed introduction the prompt reads as exactly
      the JSON object of the condition and the choices, followed by the
      rules.
    - [Effects]: the effects as a free monad [Prog.Prog] with one
      constructor per external event (the Gemini call, [console.error]),
      JavaScript completion records and promise settlement ([Js]), the
      statement combinators ([return_], [seq], [try_catch],
      [await_generate], [async_fn]), the backend interface [GeminiClient]
      (a typeclass: every theorem holds for every backend) and the
      interpreter [run], which returns the result with the event trace.
    - [Branch]: the options and result records ([Types]), [fail] and the
      body of [GeminiBranch] ([Impl]: the guards, the request, the
      reconciler, the [try]/[catch] and the unreachable fall-through,
      composed as the code composes them); [Outcome.outcome], the seven
      paths a run can take, proved exhaustive ([GeminiBranch_outcome]);
      theorems C1-C14 ([Properties]): totality, membership, failure shape,
      fast failure on each guard without a backend call, exact matching
      after trimming, fallback precedence, invalid and failed responses,
      unreachability of the fall-through, the diagnostics, the single
      request, and the two departures from the specification (an empty
      fallback is never matched; a rejection whose [String(e)] throws
      rejects the promise).
    - [Contract]: the specification's state machine ([SpecMachine]:
      [Start], [Validated], [Invoked], [Done], the step relation
      [spec_step] and its closure [spec_star]), determinism and uniqueness
      of the final result by rule induction ([SpecFacts]), and the
      refinement theorem C15: on every backend whose rejections convert,
      and every fallback but the empty string, [GeminiBranch] fulfils with
      exactly the result the machine reaches.

    ** Bounds and fuel

    Only the JSON reader uses fuel (one unit per nested value).  A string
    needs one unit (C17 holds at every [S fuel]); an array of [n] strings
    needs [n + 1] (C18 asks [n < fuel]); the payload object needs two more
    for its members and its nesting (C16 asks [n + 4 < fuel]).  Code units
    are unbounded [N] numbers; every operation of the program on them
    compares or copies them, and [stringify] only emits units below 65536
    for inputs below 65536.

    ** Not modelled

    The @google/genai library beyond its call boundary (transport, model
    behaviour, retries): a backend is any [GeminiClient], a function from
    the request to a response text or a rejection.  The output of
    [console.error] itself: a call is an event of the trace.  The
    TypeScript types of the fields other than [condition] and [choices]
    are taken as declared.
*)

From stdpp Require Export base list options strings.
From Stdlib Require Export NArith Ascii Lia.

(** ** Notation *)

Declare Scope js_scope.
Delimit Scope js_scope with js.

(** JavaScript's nullish coalescing [o ?? d] on an optional value. *)
Notation "o ?? d" := (default d o) (at level 40, left associativity) : js_scope.

(** ** Tactics *)

(** Invert a hypothesis and substitute its equations. *)
Ltac invc H := inversion H; subst; clear H.

(** Split the boolean connectives of the hypotheses into their parts. *)
Ltac split_bools :=
  repeat match goal with
  | H : (_ && _)%bool = true |- _ => apply andb_true_iff in H as [? ?]
  | H : (_ || _)%bool = false |- _ => apply orb_false_iff in H as [? ?]
  | H : negb _ = true |- _ => apply negb_true_iff in H
  | H : negb _ = false |- _ => apply negb_false_iff in H
  end.

(** Rewrite into [H] every equation [x = v] of the context whose left side
    occurs in [H]. *)
Ltac rewrite_eqs_in H :=
  repeat match goal with
  | E : ?x = _ |- _ =>
      tryif constr_eq E H then fail else
      lazymatch type of H with context [x] => rewrite E in H end
  end.

(** Two equations [x = a] and [x = b] with the same left side become
    [a = b], which [simplify_eq] then solves, injects or substitutes. *)
Ltac merge_eqs :=
  repeat match goal with
  | E1 : ?x = _, E2 : ?x = _ |- _ =>
      tryif constr_eq E1 E2 then fail else (rewrite E1 in E2; simplify_eq)
  end.

(** Case on every comparison of [N] numbers in the goal. *)
Ltac N_cases :=
  repeat match goal with
  | |- context [(?a <=? ?b)%N] => destruct (N.leb_spec a b)
  | |- context [(?a <? ?b)%N] => destruct (N.ltb_spec a b)
  | |- context [(?a =? ?b)%N] => destruct (N.eqb_spec a b)
  end.

Create HintDb gemini discriminated.
Create Rewrite HintDb gemini_rw.

(** ** Generic lemmas on lists and options *)

Section Generic.
Context {A : Type}.

Lemma default_Some_eq (d x : A) : default d (Some x) = x.
Proof. reflexivity. Qed.

Lemma default_None_eq (d : A) : default d None = d.
Proof. reflexivity. Qed.

(** A list that is not empty has a last element. *)
Lemma list_snoc_cases (l : list A) : l = [] \/ exists l' x, l = l' ++ [x].
Proof.
  destruct (decide (l = [])) as [->|Hne]; [by left|right].
  destruct (exists_last Hne) as [l' [x ->]]. eauto.
Qed.

Lemma Forall_snoc (P : A -> Prop) (l : list A) (x : A) :
  Forall P (l ++ [x]) <-> Forall P l /\ P x.
Proof. rewrite Forall_app, Forall_singleton. done. Qed.

Lemma app_cons_app (l1 l2 : list A) (x : A) :
  l1 ++ x :: l2 = (l1 ++ [x]) ++ l2.
Proof. by rewrite <- app_assoc. Qed.
End Generic.

#[export] Hint Rewrite @default_Some_eq @default_None_eq : gemini_rw.
