(* ===== verification/JsString.v ===== *)
(** * JsString: the JavaScript string primitives GeminiBranch calls

    A JavaScript string is a sequence of UTF-16 code units; it is modelled
    as a list of [N] ([jsstring]) so that the whitespace of
    [String.prototype.trim] and the surrogates of [JSON.stringify] are the
    ones of the language, not of ASCII.  [lit] turns a Rocq string literal
    into the code units of the same ASCII text.

    - [StringProto]: [trim] (used at index.ts lines 50 and 82), written the
      way TrimString works (strip from the start, then from the end), with
      [trim_end] proved equal to the reversal-based reference.
    - [ArrayProto]: [Array.prototype.includes] on a string array (line 94)
      and the truthiness of a string (line 85).
    - [TrimFacts]: [trim] strips exactly the white space at both ends
      (C20), and the one-pass [trim_end] equals the reversal-based
      reference; [IncludesFacts]: [includes] decides membership. *)

From S2P Require Import Prelude.
From Stdlib Require Import Strings.Byte.

Local Open Scope N_scope.

(** A UTF-16 code unit and a JavaScript string. *)
Abbreviation code_unit := N.
Abbreviation jsstring := (list N).

(** The code units of an ASCII literal. *)
Fixpoint lit (s : string) : jsstring :=
  match s with
  | EmptyString => []
  | String a s' => Byte.to_N (byte_of_ascii a) :: lit s'
  end.
Arguments lit s%_string.

Module StringProto.

(** ECMA-262 WhiteSpace (TAB, VT, FF, ZWNBSP and the Zs category) and
    LineTerminator (LF, CR, LS, PS): the code units TrimString strips. *)
Definition js_whitespace_units : list N :=
  [9; 11; 12; 32; 160; 5760; 8239; 8287; 12288; 65279; 10; 13; 8232; 8233].

Definition is_js_whitespace (c : N) : bool :=
  existsb (N.eqb c) js_whitespace_units || ((8192 <=? c) && (c <=? 8202)).

(** TrimString(s, start): drop the leading white space. *)
Fixpoint trim_start (s : jsstring) : jsstring :=
  match s with
  | [] => []
  | c :: s' => if is_js_whitespace c then trim_start s' else s
  end.

(** TrimString(s, end): drop the trailing white space, in one pass from
    the left. *)
Fixpoint trim_end (s : jsstring) : jsstring :=
  match s with
  | [] => []
  | c :: s' =>
      match trim_end s' with
      | [] => if is_js_whitespace c then [] else [c]
      | t => c :: t
      end
  end.

(** [s.trim()]. *)
Definition trim (s : jsstring) : jsstring := trim_end (trim_start s).

(** [s.trim()] equal to the empty string, the blank test of line 50. *)
Definition is_blank (s : jsstring) : bool :=
  match trim s with [] => true | _ => false end.

(** A string with no white space at either end. *)
Definition trimmed (t : jsstring) : Prop :=
  (forall c, head t = Some c -> is_js_whitespace c = false) /\
  (forall c, last t = Some c -> is_js_whitespace c = false).

Abbreviation all_ws := (Forall (fun c => is_js_whitespace c = true)).

End StringProto.

Module ArrayProto.

(** [l.includes(x)] on an array of strings: SameValueZero on strings is
    code-unit equality. *)
Fixpoint includes (l : list jsstring) (x : jsstring) : bool :=
  match l with
  | [] => false
  | y :: l' => bool_decide (y = x) || includes l' x
  end.

(** [ToBoolean] of a string: only the empty string is falsy. *)
Definition truthy_string (s : jsstring) : bool :=
  match s with [] => false | _ => true end.

End ArrayProto.

(** ** Trimming *)

Module TrimFacts.
Import StringProto.

Lemma trim_start_app l1 l2 :
  trim_start (l1 ++ l2) =
    match trim_start l1 with [] => trim_start l2 | t => t ++ l2 end.
Proof.
  induction l1 as [|c l1 IH]; [done|]. simpl.
  destruct (is_js_whitespace c); [done|]. done.
Qed.

Lemma trim_start_nil_iff s : trim_start s = [] <-> all_ws s.
Proof.
  induction s as [|c s IH]; simpl; [split; auto|].
  destruct (is_js_whitespace c) eqn:Hc.
  - rewrite IH. split; [by constructor|by inversion 1].
  - split; [done|]. inversion 1. congruence.
Qed.

Lemma trim_start_all_ws s : all_ws s -> trim_start s = [].
Proof. apply trim_start_nil_iff. Qed.

(** The one-pass [trim_end] is the reference "reverse, trim the start,
    reverse" of the specification's TrimString. *)
Lemma trim_end_reverse s : trim_end s = reverse (trim_start (reverse s)).
Proof.
  induction s as [|c s IH]; [done|].
  rewrite reverse_cons, trim_start_app. simpl. rewrite IH.
  destruct (trim_start (reverse s)) as [|d t] eqn:E; simpl.
  - destruct (is_js_whitespace c); done.
  - change (d :: t ++ [c]) with ((d :: t) ++ [c]).
    rewrite reverse_app, reverse_singleton, reverse_cons.
    by destruct (reverse t).
Qed.

Lemma trim_end_app_ws s suf : all_ws suf -> trim_end (s ++ suf) = trim_end s.
Proof.
  intros Hs. rewrite !trim_end_reverse, reverse_app, trim_start_app.
  rewrite (trim_start_all_ws (reverse suf)); [done|].
  by apply Forall_reverse.
Qed.

Lemma trim_start_app_ws pre s : all_ws pre -> trim_start (pre ++ s) = trim_start s.
Proof. intros Hp. by rewrite trim_start_app, trim_start_all_ws. Qed.

Lemma trim_start_decompose s :
  exists pre, s = pre ++ trim_start s /\ all_ws pre /\
    forall c, head (trim_start s) = Some c -> is_js_whitespace c = false.
Proof.
  induction s as [|c s (pre & Hs & Hpre & Hh)]; simpl.
  - exists []. done.
  - destruct (is_js_whitespace c) eqn:Hc.
    + exists (c :: pre). simpl. rewrite <- Hs. auto.
    + exists []. split_and!; [done|constructor|]. by intros d [= <-].
Qed.

Lemma trim_end_decompose s :
  exists suf, s = trim_end s ++ suf /\ all_ws suf /\
    forall c, last (trim_end s) = Some c -> is_js_whitespace c = false.
Proof.
  destruct (trim_start_decompose (reverse s)) as (pre & Hs & Hpre & Hh).
  rewrite trim_end_reverse. set (t := trim_start (reverse s)) in *.
  exists (reverse pre). split_and!.
  - by rewrite <- (reverse_involutive s), Hs, reverse_app.
  - by apply Forall_reverse.
  - intros c. rewrite last_reverse. apply Hh.
Qed.

Lemma trim_end_head s c : head (trim_end s) = Some c -> head s = Some c.
Proof.
  destruct (trim_end_decompose s) as (suf & Hs & _ & _).
  intros Hc. by rewrite Hs, head_app, Hc.
Qed.

Lemma trim_end_nil_all_ws s : trim_end s = [] -> all_ws s.
Proof.
  destruct (trim_end_decompose s) as (suf & Hs & Hsuf & _).
  intros He. by rewrite Hs, He.
Qed.

(** The input of [trim] is its result padded with white space, and the
    result starts and ends with a code unit that is not white space. *)
Lemma trim_decompose s :
  exists pre suf, s = pre ++ trim s ++ suf /\ all_ws pre /\ all_ws suf /\
    trimmed (trim s).
Proof.
  destruct (trim_start_decompose s) as (pre & H1 & Hpre & Hh).
  destruct (trim_end_decompose (trim_start s)) as (suf & H2 & Hsuf & Hl).
  exists pre, suf. unfold trim. split_and!; try done.
  - by rewrite <- H2.
  - split; [|done]. intros c Hc. by apply Hh, trim_end_head.
Qed.

(** Padding with white space on both sides does not change the result. *)
Lemma trim_pad pre t suf :
  all_ws pre -> all_ws suf -> trim (pre ++ t ++ suf) = trim t.
Proof.
  intros Hpre Hsuf. unfold trim.
  rewrite trim_start_app_ws by done. rewrite trim_start_app.
  destruct (trim_start t) as [|c t'] eqn:E.
  - by rewrite trim_start_all_ws.
  - by rewrite trim_end_app_ws.
Qed.

(** A string with no white space at its ends is its own trim. *)
Lemma trim_trimmed t : trimmed t -> trim t = t.
Proof.
  intros [Hh Hl]. unfold trim.
  assert (trim_start t = t) as ->.
  { destruct t as [|c t]; [done|]. simpl. by rewrite (Hh c). }
  rewrite trim_end_reverse.
  destruct (reverse t) as [|c r] eqn:E; simpl.
  - by rewrite <- E, reverse_involutive.
  - rewrite (Hl c), <- E; [apply reverse_involutive|].
    by rewrite <- head_reverse, E.
Qed.

(** C20 (what [String.prototype.trim] computes). [trim s] is [t] exactly
    when [s] is [t] padded on both sides with white space and line
    terminators and [t] neither starts nor ends with one: the model strips
    exactly the ECMAScript white space at the two ends. *)
Theorem trim_spec s t :
  trim s = t <->
  exists pre suf, s = pre ++ t ++ suf /\ all_ws pre /\ all_ws suf /\ trimmed t.
Proof.
  split.
  - intros <-. apply trim_decompose.
  - intros (pre & suf & -> & Hpre & Hsuf & Ht).
    rewrite trim_pad by done. by apply trim_trimmed.
Qed.

(** The blank test of line 50: [s.trim()] equal to the empty string exactly when [s] is all
    white space. *)
Lemma is_blank_spec s : is_blank s = true <-> all_ws s.
Proof.
  unfold is_blank. split.
  - destruct (trim s) eqn:E; [|done]. intros _.
    destruct (trim_decompose s) as (pre & suf & Hs & Hpre & Hsuf & _).
    rewrite Hs, E. by apply Forall_app.
  - intros Hs. unfold trim. by rewrite trim_start_all_ws.
Qed.

End TrimFacts.

Module IncludesFacts.
Import ArrayProto.

Lemma includes_spec l x : includes l x = true <-> x ∈ l.
Proof.
  induction l as [|y l IH]; simpl.
  - rewrite elem_of_nil. done.
  - rewrite orb_true_iff, bool_decide_eq_true, IH, elem_of_cons. naive_solver.
Qed.

Lemma includes_false l x : includes l x = false <-> x ∉ l.
Proof. rewrite <- includes_spec. destruct (includes l x); naive_solver. Qed.

End IncludesFacts.
