(* ===== verification/Json.v ===== *)
(** * Json: [JSON.stringify] on strings and string arrays, and a reader

    GeminiBranch embeds [JSON.stringify(args.condition)] and
    [JSON.stringify(args.choices)] in its prompt (index.ts lines 68-69).

    - [Stringify]: ECMA-262 QuoteJSONString, code unit by code unit: the
      short escapes of its Table 73, [\uXXXX] (lowercase hex) for the other
      control characters and for lone surrogates, a surrogate pair copied
      as it is; SerializeJSONArray with an empty gap for an array of
      strings.
    - [Reader]: a JSON reader for strings, arrays and objects (what the
      backend is asked to read), with fuel for the nesting.
    - The round trips: the reader recovers every string from its
      [stringify] and every string array from its [stringify_array]
      (C17, C18), and [stringify] never emits a control character (C19). *)

From S2P Require Import Prelude JsString.
From Stdlib Require Import FunInd.

Local Open Scope N_scope.

Module Stringify.

(** A hexadecimal digit in lowercase, as UnicodeEscape writes it. *)
Definition hex_digit (d : N) : N := if d <? 10 then 48 + d else 87 + d.

(** UnicodeEscape(C): [\u] and the four hex digits of the code unit. *)
Definition unicode_escape (c : N) : jsstring :=
  [92; 117; hex_digit (c / 4096 mod 16); hex_digit (c / 256 mod 16);
   hex_digit (c / 16 mod 16); hex_digit (c mod 16)].

(** Table 73 of ECMA-262: the code units written as a backslash and one
    letter: b, t, n, f, r, the double quote and the backslash. *)
Definition short_escape (c : N) : option N :=
  if c =? 8 then Some 98
  else if c =? 9 then Some 116
  else if c =? 10 then Some 110
  else if c =? 12 then Some 102
  else if c =? 13 then Some 114
  else if c =? 34 then Some 34
  else if c =? 92 then Some 92
  else None.

Definition is_leading_surrogate (c : N) : bool := (55296 <=? c) && (c <=? 56319).
Definition is_trailing_surrogate (c : N) : bool := (56320 <=? c) && (c <=? 57343).

(** The body of QuoteJSONString: the string is read as code points, so a
    leading surrogate followed by a trailing one is a pair, copied as it
    is, and any other surrogate is escaped. *)
Fixpoint quote_units (s : jsstring) : jsstring :=
  match s with
  | [] => []
  | c :: s' =>
      match short_escape c with
      | Some e => 92 :: e :: quote_units s'
      | None =>
          if c <? 32 then unicode_escape c ++ quote_units s'
          else if is_leading_surrogate c then
            match s' with
            | d :: s'' =>
                if is_trailing_surrogate d then c :: d :: quote_units s''
                else unicode_escape c ++ quote_units s'
            | [] => unicode_escape c ++ quote_units s'
            end
          else if is_trailing_surrogate c then unicode_escape c ++ quote_units s'
          else c :: quote_units s'
      end
  end.

(** [JSON.stringify(s)] for a string [s]: QuoteJSONString. *)
Definition stringify (s : jsstring) : jsstring := 34 :: quote_units s ++ [34].

(** The elements of a serialized array, separated by commas. *)
Fixpoint join_comma (parts : list jsstring) : jsstring :=
  match parts with
  | [] => []
  | [p] => p
  | p :: ps => p ++ 44 :: join_comma ps
  end.

(** [JSON.stringify(l)] for an array of strings: SerializeJSONArray with
    the empty gap. *)
Definition stringify_array (l : list jsstring) : jsstring :=
  match l with
  | [] => [91; 93]
  | _ => 91 :: join_comma (map stringify l) ++ [93]
  end.

End Stringify.

Module Reader.

(** The JSON values the reader knows: strings, arrays and objects (members
    in order).  Numbers and literals are not read. *)
Inductive json : Type :=
| JString (s : jsstring)
| JArray (l : list json)
| JObject (members : list (jsstring * json)).

(** JSON white space: space, tab, line feed, carriage return. *)
Definition is_json_ws (c : N) : bool := (c =? 32) || (c =? 9) || (c =? 10) || (c =? 13).

Fixpoint skip_ws (s : jsstring) : jsstring :=
  match s with
  | [] => []
  | c :: s' => if is_json_ws c then skip_ws s' else s
  end.

(** The value of a hexadecimal digit, in either case. *)
Definition hex_value (c : N) : option N :=
  if (48 <=? c) && (c <=? 57) then Some (c - 48)
  else if (97 <=? c) && (c <=? 102) then Some (c - 87)
  else if (65 <=? c) && (c <=? 70) then Some (c - 55)
  else None.

Definition hex4_value (a b c d : N) : option N :=
  match hex_value a, hex_value b, hex_value c, hex_value d with
  | Some w, Some x, Some y, Some z => Some (((w * 16 + x) * 16 + y) * 16 + z)
  | _, _, _, _ => None
  end.

(** The code unit a backslash and one letter stand for. *)
Definition unescape_short (e : N) : option N :=
  if e =? 34 then Some 34
  else if e =? 92 then Some 92
  else if e =? 47 then Some 47
  else if e =? 98 then Some 8
  else if e =? 102 then Some 12
  else if e =? 110 then Some 10
  else if e =? 114 then Some 13
  else if e =? 116 then Some 9
  else None.

Definition cons_fst (u : N) (p : jsstring * jsstring) : jsstring * jsstring :=
  (u :: p.1, p.2).

(** The body of a string literal after its opening quote: the string it
    denotes and the input after the closing quote.  A raw control
    character is an error. *)
Fixpoint string_body (s : jsstring) : option (jsstring * jsstring) :=
  match s with
  | [] => None
  | c :: s1 =>
      if c =? 34 then Some ([], s1)
      else if c =? 92 then
        match s1 with
        | [] => None
        | e :: s2 =>
            if e =? 117 then
              match s2 with
              | a :: b :: d :: f :: s3 =>
                  match hex4_value a b d f with
                  | Some u => cons_fst u <$> string_body s3
                  | None => None
                  end
              | _ => None
              end
            else
              match unescape_short e with
              | Some u => cons_fst u <$> string_body s2
              | None => None
              end
        end
      else if c <? 32 then None
      else cons_fst c <$> string_body s1
  end.

(** A value after white space; [fuel] bounds the nesting and the number of
    elements and members. *)
Fixpoint parse_value (fuel : nat) (s : jsstring) : option (json * jsstring) :=
  match fuel with
  | O => None
  | S fuel' =>
      match skip_ws s with
      | [] => None
      | c :: s1 =>
          if c =? 34 then (fun p => (JString p.1, p.2)) <$> string_body s1
          else if c =? 91 then
            match skip_ws s1 with
            | 93 :: r => Some (JArray [], r)
            | _ => (fun p => (JArray p.1, p.2)) <$> parse_elements fuel' s1
            end
          else if c =? 123 then
            match skip_ws s1 with
            | 125 :: r => Some (JObject [], r)
            | _ => (fun p => (JObject p.1, p.2)) <$> parse_members fuel' s1
            end
          else None
      end
  end
(** The elements of an array after [[], up to and including [\]]. *)
with parse_elements (fuel : nat) (s : jsstring) : option (list json * jsstring) :=
  match fuel with
  | O => None
  | S fuel' =>
      match parse_value fuel' s with
      | None => None
      | Some (v, r) =>
          match skip_ws r with
          | 44 :: r' => (fun p => (v :: p.1, p.2)) <$> parse_elements fuel' r'
          | 93 :: r' => Some ([v], r')
          | _ => None
          end
      end
  end
(** The members of an object after [{], up to and including [}]. *)
with parse_members (fuel : nat) (s : jsstring)
    : option (list (jsstring * json) * jsstring) :=
  match fuel with
  | O => None
  | S fuel' =>
      match skip_ws s with
      | 34 :: s1 =>
          match string_body s1 with
          | None => None
          | Some (k, r) =>
              match skip_ws r with
              | 58 :: r' =>
                  match parse_value fuel' r' with
                  | None => None
                  | Some (v, r'') =>
                      match skip_ws r'' with
                      | 44 :: r3 => (fun p => ((k, v) :: p.1, p.2)) <$> parse_members fuel' r3
                      | 125 :: r3 => Some ([(k, v)], r3)
                      | _ => None
                      end
                  end
              | _ => None
              end
          end
      | _ => None
      end
  end.

End Reader.

(** ** Round trips *)

Module JsonFacts.
Import Stringify Reader.

#[local] Arguments hex4_value : simpl never.
#[local] Arguments stringify : simpl never.
#[local] Arguments stringify_array : simpl never.
#[local] Arguments unicode_escape : simpl never.
#[local] Arguments join_comma : simpl never.

Functional Scheme quote_units_ind := Induction for quote_units Sort Prop.

Lemma hex_value_digit d : d < 16 -> hex_value (hex_digit d) = Some d.
Proof.
  intros Hd. unfold hex_digit. destruct (N.ltb_spec d 10);
    unfold hex_value; N_cases; simpl; try lia; f_equal; lia.
Qed.

Lemma hex4_recompose c : c < 65536 ->
  ((c / 4096 mod 16 * 16 + c / 256 mod 16) * 16 + c / 16 mod 16) * 16 + c mod 16 = c.
Proof.
  intros Hc.
  pose proof (N.div_mod c 16 ltac:(lia)) as H1.
  pose proof (N.div_mod (c / 16) 16 ltac:(lia)) as H2.
  pose proof (N.div_mod (c / 256) 16 ltac:(lia)) as H3.
  rewrite N.Div0.div_div in H2, H3.
  change (16 * 16) with 256 in H2. change (256 * 16) with 4096 in H3.
  assert (c / 4096 < 16) by (apply N.Div0.div_lt_upper_bound; lia).
  rewrite (N.mod_small (c / 4096)) by lia.
  lia.
Qed.

Lemma hex4_value_escape c : c < 65536 ->
  hex4_value (hex_digit (c / 4096 mod 16)) (hex_digit (c / 256 mod 16))
             (hex_digit (c / 16 mod 16)) (hex_digit (c mod 16)) = Some c.
Proof.
  intros Hc. unfold hex4_value.
  rewrite !hex_value_digit by (apply N.mod_lt; lia).
  by rewrite hex4_recompose.
Qed.

Lemma short_escape_Some c e :
  short_escape c = Some e -> e <> 117 /\ unescape_short e = Some c.
Proof. unfold short_escape. N_cases; intros [= <-]; subst; done. Qed.

Lemma short_escape_None c : short_escape c = None -> c <> 34 /\ c <> 92.
Proof. unfold short_escape. N_cases; done. Qed.

Lemma string_body_raw c s :
  c <> 34 -> c <> 92 -> 32 <= c -> string_body (c :: s) = cons_fst c <$> string_body s.
Proof. intros. simpl. N_cases; first [done | exfalso; lia]. Qed.

Lemma string_body_short c e s :
  short_escape c = Some e -> string_body (92 :: e :: s) = cons_fst c <$> string_body s.
Proof.
  intros [Hu Hun]%short_escape_Some. simpl.
  destruct (N.eqb_spec e 117); [done|]. by rewrite Hun.
Qed.

Lemma string_body_unicode c s :
  c < 65536 -> string_body (unicode_escape c ++ s) = cons_fst c <$> string_body s.
Proof. intros Hc. simpl. by rewrite hex4_value_escape. Qed.

Lemma leading_surrogate_bounds c :
  is_leading_surrogate c = true -> 55296 <= c <= 56319.
Proof. unfold is_leading_surrogate. rewrite andb_true_iff, !N.leb_le. done. Qed.

Lemma trailing_surrogate_bounds c :
  is_trailing_surrogate c = true -> 56320 <= c <= 57343.
Proof. unfold is_trailing_surrogate. rewrite andb_true_iff, !N.leb_le. done. Qed.

(** Clear up the facts a case of [quote_units] records about its code unit. *)
Ltac quote_facts :=
  repeat match goal with
  | H : short_escape _ = None |- _ => apply short_escape_None in H as [? ?]
  | H : is_leading_surrogate _ = true |- _ => apply leading_surrogate_bounds in H
  | H : is_trailing_surrogate _ = true |- _ => apply trailing_surrogate_bounds in H
  | H : (_ <? _) = true |- _ => apply N.ltb_lt in H
  | H : (_ <? _) = false |- _ => apply N.ltb_ge in H
  end.

(** The body of QuoteJSONString reads back as the string it quotes: no
    code unit of the string can end the literal early. *)
Lemma string_body_quote s rest :
  string_body (quote_units s ++ 34 :: rest) = Some (s, rest).
Proof.
  revert rest. functional induction (quote_units s); intros rest; quote_facts;
    cbn [app]; rewrite <-?app_assoc;
    first [ erewrite string_body_short by eassumption
          | rewrite string_body_unicode by lia
          | rewrite !string_body_raw by lia
          | idtac ];
    rewrite ?IHl; done.
Qed.

Lemma stringify_app s rest : stringify s ++ rest = 34 :: quote_units s ++ 34 :: rest.
Proof. unfold stringify. simpl. by rewrite <- app_assoc. Qed.

Lemma parse_value_skip f c s :
  is_json_ws c = true -> parse_value f (c :: s) = parse_value f s.
Proof. intros Hc. destruct f; [done|]. simpl. by rewrite Hc. Qed.

(** Evaluate the reader's white-space skipping and number tests, and
    nothing else. *)
Ltac reader_step := cbn [skip_ws is_json_ws N.eqb Pos.eqb orb app].

Lemma parse_value_stringify_pos fuel s rest :
  (0 < fuel)%nat -> parse_value fuel (stringify s ++ rest) = Some (JString s, rest).
Proof.
  intros Hf. destruct fuel as [|fuel]; [lia|].
  rewrite stringify_app. simpl. by rewrite string_body_quote.
Qed.

Lemma join_comma_one p : join_comma [p] = p.
Proof. reflexivity. Qed.

Lemma join_comma_cons2 p q ps : join_comma (p :: q :: ps) = p ++ 44 :: join_comma (q :: ps).
Proof. reflexivity. Qed.

(** The serialized elements of a non-empty array start with a quote. *)
Lemma join_stringify_quote x l t :
  exists u, join_comma (map stringify (x :: l)) ++ t = 34 :: u.
Proof.
  destruct l as [|y l]; simpl map.
  - rewrite join_comma_one, stringify_app. eauto.
  - rewrite join_comma_cons2, <- app_assoc, stringify_app. eauto.
Qed.

Lemma parse_elements_join l fuel rest :
  l <> [] -> (length l < fuel)%nat ->
  parse_elements fuel (join_comma (map stringify l) ++ 93 :: rest) = Some (map JString l, rest).
Proof.
  revert fuel. induction l as [|x l IH]; intros fuel Hne Hlen; [done|].
  destruct fuel as [|fuel]; [simpl in Hlen; lia|].
  destruct l as [|y l]; simpl map.
  - rewrite join_comma_one. cbn [parse_elements].
    rewrite parse_value_stringify_pos by (simpl in Hlen; lia). done.
  - rewrite join_comma_cons2, <- app_assoc. cbn [parse_elements].
    rewrite parse_value_stringify_pos by (simpl in Hlen; lia). reader_step.
    rewrite <- (map_cons stringify y l), IH by (done || simpl in *; lia). done.
Qed.

Lemma stringify_array_app l rest :
  l <> [] ->
  stringify_array l ++ rest = 91 :: join_comma (map stringify l) ++ 93 :: rest.
Proof. intros Hne. destruct l; [done|]. unfold stringify_array. simpl. by rewrite <- app_assoc. Qed.

Lemma hex_digit_ge d : 48 <= hex_digit d.
Proof. unfold hex_digit. N_cases; lia. Qed.

Lemma short_escape_ge c e : short_escape c = Some e -> 32 <= e.
Proof. unfold short_escape. N_cases; intros [= <-]; lia. Qed.

Lemma unicode_escape_ge c : Forall (fun x => 32 <= x) (unicode_escape c).
Proof.
  assert (forall d, 32 <= hex_digit d) as Hd.
  { intros d. pose proof (hex_digit_ge d). lia. }
  unfold unicode_escape. repeat apply Forall_cons_2; auto; lia.
Qed.

Lemma parse_value_array l rest fuel :
  (length l < fuel)%nat ->
  parse_value (S fuel) (stringify_array l ++ rest) = Some (JArray (map JString l), rest).
Proof.
  intros Hlen. destruct l as [|x l]; [done|].
  rewrite stringify_array_app by done.
  destruct (join_stringify_quote x l (93 :: rest)) as [u Hu].
  cbn [parse_value]. reader_step. rewrite Hu. reader_step.
  rewrite <- Hu, parse_elements_join by done. done.
Qed.

(** C17 (string round trip). Reading a JSON value from [JSON.stringify(s)]
    followed by any text gives back exactly the string [s] and the text,
    for every string: escapes, control characters and lone surrogates
    included. *)
Theorem stringify_roundtrip s rest fuel :
  parse_value (S fuel) (stringify s ++ rest) = Some (JString s, rest).
Proof. apply parse_value_stringify_pos. lia. Qed.

(** C18 (array round trip). Reading a JSON value from [JSON.stringify(l)]
    for an array of strings [l] gives back the array of exactly those
    strings, in order, when the fuel exceeds the number of elements. *)
Theorem stringify_array_roundtrip l rest fuel :
  (length l < fuel)%nat ->
  parse_value (S fuel) (stringify_array l ++ rest) = Some (JArray (map JString l), rest).
Proof. apply parse_value_array. Qed.

(** C19 (no control characters). [JSON.stringify(s)] contains no code unit
    below U+0020: no line feed, carriage return or tab of the condition
    reaches the prompt unescaped. *)
Theorem stringify_no_control s : Forall (fun c => 32 <= c) (stringify s).
Proof.
  unfold stringify. constructor; [lia|]. apply Forall_app. split; [|by repeat constructor; lia].
  functional induction (quote_units s); quote_facts;
    rewrite ?Forall_app, ?Forall_cons; repeat split;
    eauto using unicode_escape_ge, short_escape_ge; lia.
Qed.

Lemma stringify_array_roundtrip_witness :
  (length [lit "Yes"; lit "No"] < 3)%nat /\
  parse_value 4 (stringify_array [lit "Yes"; lit "No"] ++ lit " rest") =
    Some (JArray [JString (lit "Yes"); JString (lit "No")], lit " rest").
Proof.
  split; [simpl; lia|].
  apply (stringify_array_roundtrip [lit "Yes"; lit "No"] (lit " rest") 3). simpl; lia.
Defined.

End JsonFacts.
