(* ===== verification/Prompt.v ===== *)
(** * Prompt: the template literal sent to the backend

    The prompt is the template literal of index.ts lines 63-79, code unit
    by code unit: a line feed right after the backtick, lines indented by
    six spaces (eight inside the JSON object), [JSON.stringify] of the
    condition and of the choices, and [args.else ?? (empty string)] interpolated as it
    is.  A double quote is the code unit 34, written [dq]. *)

From S2P Require Import Prelude JsString Json.

Local Open Scope N_scope.

Module Template.
Import Stringify.

Definition lf : jsstring := [10].
Definition dq : jsstring := [34].
Definition indent (n : nat) : jsstring := replicate n 32.

(** A line of the template: six spaces, the text, a line feed. *)
Definition line (t : jsstring) : jsstring := indent 6 ++ t ++ lf.

(** The text before the JSON object (lines 63-67). *)
Definition prompt_intro : jsstring :=
  lf ++
  line (lit "You are a strict conditional branching engine.") ++
  line (lit "From the " ++ dq ++ lit "choices" ++ dq ++
        lit " array in the JSON below, output **exactly one element that matches completely**.") ++
  lf ++
  indent 6.

(** The JSON object of lines 67-70, with [JSON.stringify] of the condition
    and of the choices. *)
Definition payload (condition : jsstring) (choices : list jsstring) : jsstring :=
  lit "{" ++ lf ++
  indent 8 ++ dq ++ lit "condition" ++ dq ++ lit ": " ++ stringify condition ++ lit "," ++ lf ++
  indent 8 ++ dq ++ lit "choices" ++ dq ++ lit ": " ++ stringify_array choices ++ lf ++
  indent 6 ++ lit "}".

(** The output rules (lines 70-79), ending with the fallback interpolated
    as it is and the indentation before the closing backtick. *)
Definition prompt_rules (else_ : option jsstring) : jsstring :=
  lf ++
  lf ++
  line (lit "Output rules:") ++
  line (lit "- Output exactly one element from " ++ dq ++ lit "choices" ++ dq) ++
  line (lit "- Do NOT output JSON") ++
  line (lit "- Do NOT add explanations") ++
  line (lit "- Do NOT add extra spaces or line breaks") ++
  line (lit "- Do NOT output anything other than an element from " ++ dq ++ lit "choices" ++ dq) ++
  indent 6 ++ lit "- If no element matches, output " ++ (else_ ?? [])%js ++ lf ++
  indent 6.

(** The [contents] of the request (lines 63-79). *)
Definition contents (condition : jsstring) (choices : list jsstring)
    (else_ : option jsstring) : jsstring :=
  prompt_intro ++ payload condition choices ++ prompt_rules else_.

End Template.

(** ** The payload of the prompt *)

Module PromptFacts.
Import Stringify Reader JsonFacts Template.

(** The object the payload denotes. *)
Definition payload_json (cond : jsstring) (chs : list jsstring) : json :=
  JObject [(lit "condition", JString cond); (lit "choices", JArray (map JString chs))].

Lemma payload_parse cond chs rest fuel :
  (length chs + 4 < fuel)%nat ->
  parse_value fuel (payload cond chs ++ rest) = Some (payload_json cond chs, rest).
Proof.
  intros Hf. unfold payload.
  remember (stringify cond) as SC eqn:HSC.
  remember (stringify_array chs) as SA eqn:HSA.
  destruct fuel as [|[|g]]; try lia.
  rewrite <- !app_assoc. simpl.
  rewrite (parse_value_skip g 32) by reflexivity.
  rewrite HSC, parse_value_stringify_pos by lia.
  destruct g as [|h]; try lia. simpl.
  rewrite (parse_value_skip h 32) by reflexivity.
  destruct h as [|h]; try lia.
  rewrite HSA, parse_value_array by lia.
  reflexivity.
Qed.

(** C16 (an unambiguous payload). In the prompt sent to the backend, the
    text after the fixed introduction reads as one JSON value, the object
    with exactly the members [condition] and [choices] holding the caller's
    strings, followed by the output rules: no character of the condition
    or of a choice can change the structure of the payload. *)
Theorem contents_payload_roundtrip cond chs els fuel :
  (length chs + 4 < fuel)%nat ->
  parse_value fuel (drop (length prompt_intro) (contents cond chs els)) =
    Some (JObject [(lit "condition", JString cond);
                   (lit "choices", JArray (map JString chs))],
          prompt_rules els).
Proof. intros Hf. unfold contents. rewrite drop_app_length. by apply payload_parse. Qed.

Lemma contents_payload_roundtrip_witness :
  (length [lit "Yes"; [34%N]; [10%N]] + 4 < 8)%nat /\
  parse_value 8 (drop (length prompt_intro)
                   (contents (lit "Is it raining?" ++ [34; 10; 92]) [lit "Yes"; [34]; [10]] None)) =
    Some (JObject [(lit "condition", JString (lit "Is it raining?" ++ [34; 10; 92]));
                   (lit "choices", JArray (map JString [lit "Yes"; [34]; [10]]))],
          prompt_rules None).
Proof.
  split; [simpl; lia|].
  apply contents_payload_roundtrip. simpl; lia.
Defined.

End PromptFacts.
