(* ===== verification/Effects.v ===== *)
(** * Effects: the external calls and the control flow of an async function

    GeminiBranch performs two effects: it awaits the Gemini client (index.ts
    lines 60-80) and, when asked to, writes to [console.error] (line 34).

    - [Js]: thrown values, the completion records of statements (normal,
      [return], [throw]) and the settlement of the promise an [async]
      function returns.
    - [Client]: the request passed to [ai.models.generateContent] and its
      outcome, and the class [GeminiClient] of backends: the interface the
      model is proved against, for every backend.
    - [Prog]: a free monad with one constructor per effect, the statement
      combinators the function is written with ([return], sequencing,
      [try]/[catch], [await]) and [run], which interprets a program against
      a client and returns its result with the trace of events in order. *)

From S2P Require Import Prelude JsString.

Module Js.

(** A thrown value, by what [String(e)] does with it: a value whose
    conversion gives a string, or one whose conversion throws (an object
    whose [toString] throws [thrown]). *)
Inductive JsError : Type :=
| ErrValue (repr : jsstring)
| ErrUnconvertible (thrown : JsError).

(** [String(e)]: the string, or the value the conversion throws. *)
Definition String_of (e : JsError) : JsError + jsstring :=
  match e with
  | ErrValue s => inr s
  | ErrUnconvertible t => inl t
  end.

(** The completion record of a statement. *)
Inductive Completion (R : Type) : Type :=
| Normal
| Return (r : R)
| Throw (e : JsError).
Arguments Normal {R}.
Arguments Return {R} r.
Arguments Throw {R} e.

(** How the promise of an [async] function settles. *)
Inductive Settled (R : Type) : Type :=
| Fulfilled (v : R)
| FulfilledUndefined
| Rejected (e : JsError).
Arguments Fulfilled {R} v.
Arguments FulfilledUndefined {R}.
Arguments Rejected {R} e.

End Js.

Module Client.
Import Js.

(** The argument of [ai.models.generateContent] with the key the client
    is built with ([new GoogleGenAI({apiKey})], line 60). *)
Record GenerateRequest : Type := mkGenerateRequest {
  req_apiKey : jsstring;
  req_model : jsstring;
  req_contents : jsstring
}.

(** What awaiting the call gives: a response whose [text] may be
    [undefined], or a rejection (the constructor or the call threw). *)
Inductive GenerateOutcome : Type :=
| GenResolved (text : option jsstring)
| GenRejected (e : JsError).

(** The external backend, as GeminiBranch sees it. *)
Class GeminiClient : Type := generate : GenerateRequest -> GenerateOutcome.

End Client.

Module Prog.
Import Js Client.

Inductive Prog (A : Type) : Type :=
| Pure (a : A)
| CallGenerate (req : GenerateRequest) (k : GenerateOutcome -> Prog A)
| ConsoleError (msg : jsstring) (k : Prog A).
Arguments Pure {A} a.
Arguments CallGenerate {A} req k.
Arguments ConsoleError {A} msg k.

Fixpoint bind {A B} (p : Prog A) (f : A -> Prog B) : Prog B :=
  match p with
  | Pure a => f a
  | CallGenerate req k => CallGenerate req (fun o => bind (k o) f)
  | ConsoleError msg k => ConsoleError msg (bind k f)
  end.

(** A statement that completes with a result of type [R]. *)
Abbreviation Stmt R := (Prog (Completion R)).

(** [return e;] where evaluating [e] runs [p]. *)
Definition return_ {R} (p : Prog R) : Stmt R := bind p (fun r => Pure (Return r)).

(** [s1 s2]: [s2] runs when [s1] completes normally. *)
Definition seq {R} (s1 s2 : Stmt R) : Stmt R :=
  bind s1 (fun c => match c with Normal => s2 | c => Pure c end).

(** [try { s } catch (e) { h(e) }]: only a [throw] completion is caught. *)
Definition try_catch {R} (s : Stmt R) (h : JsError -> Stmt R) : Stmt R :=
  bind s (fun c => match c with Throw e => h e | c => Pure c end).

(** [const response = await generate(req); k(response.text)]: a rejected
    call throws at the [await]. *)
Definition await_generate {R} (req : GenerateRequest)
    (k : option jsstring -> Stmt R) : Stmt R :=
  CallGenerate req (fun o =>
    match o with
    | GenResolved text => k text
    | GenRejected e => Pure (Throw e)
    end).

(** The body of an [async] function and the promise it settles. *)
Definition async_fn {R} (s : Stmt R) : Prog (Settled R) :=
  bind s (fun c => Pure (match c with
                         | Normal => FulfilledUndefined
                         | Return r => Fulfilled r
                         | Throw e => Rejected e
                         end)).

(** The observable events, in the order they happen. *)
Inductive Event : Type :=
| EvGenerate (req : GenerateRequest)
| EvConsoleError (msg : jsstring).

Definition is_generate (ev : Event) : bool :=
  match ev with EvGenerate _ => true | EvConsoleError _ => false end.

Section Run.
Context `{GeminiClient}.

(** Run a program against the client: its result and its trace. *)
Fixpoint run {A} (p : Prog A) : A * list Event :=
  match p with
  | Pure a => (a, [])
  | CallGenerate req k =>
      let '(a, tr) := run (k (generate req)) in (a, EvGenerate req :: tr)
  | ConsoleError msg k =>
      let '(a, tr) := run k in (a, EvConsoleError msg :: tr)
  end.
End Run.

End Prog.

(** ** The monad laws and the interpreter *)

Module ProgFacts.
Import Js Client Prog.

Section WithClient.
Context `{GeminiClient}.

(** Running [bind p f] runs [p], then [f] on its result, and
    concatenates the traces. *)
Lemma run_bind {A B} (p : Prog A) (f : A -> Prog B) :
  run (bind p f) =
    let '(a, tr) := run p in let '(b, tr') := run (f a) in (b, tr ++ tr').
Proof.
  induction p as [a|req k IH|msg k IH]; simpl.
  - by destruct (run (f a)).
  - rewrite IH. destruct (run (k (generate req))) as [a tr].
    by destruct (run (f a)).
  - rewrite IH. destruct (run k) as [a tr]. by destruct (run (f a)).
Qed.

Lemma run_pure {A} (a : A) : run (Pure a) = (a, []).
Proof. reflexivity. Qed.

Lemma run_bind_pure {A B} (p : Prog A) (f : A -> B) :
  run (bind p (fun a => Pure (f a))) = let '(a, tr) := run p in (f a, tr).
Proof. rewrite run_bind. destruct (run p). simpl. by rewrite app_nil_r. Qed.

Lemma run_return {R} (p : Prog R) :
  run (return_ p) = let '(r, tr) := run p in (Return r, tr).
Proof. apply run_bind_pure. Qed.

Lemma run_try_catch {R} (s : Stmt R) (h : JsError -> Stmt R) :
  run (try_catch s h) =
    let '(c, tr) := run s in
    match c with
    | Throw e => let '(c', tr') := run (h e) in (c', tr ++ tr')
    | _ => (c, tr)
    end.
Proof.
  unfold try_catch. rewrite run_bind. destruct (run s) as [[| |] tr]; simpl;
    rewrite ?app_nil_r; done.
Qed.

Lemma run_seq {R} (s1 s2 : Stmt R) :
  run (seq s1 s2) =
    let '(c, tr) := run s1 in
    match c with
    | Normal => let '(c', tr') := run s2 in (c', tr ++ tr')
    | _ => (c, tr)
    end.
Proof.
  unfold seq. rewrite run_bind. destruct (run s1) as [[| |] tr]; simpl;
    rewrite ?app_nil_r; done.
Qed.

Lemma run_await_generate {R} req (k : option jsstring -> Stmt R) :
  run (await_generate req k) =
    match generate req with
    | GenResolved text => let '(c, tr) := run (k text) in (c, EvGenerate req :: tr)
    | GenRejected e => (Throw e, [EvGenerate req])
    end.
Proof. simpl. by destruct (generate req). Qed.

Lemma run_async_fn {R} (s : Stmt R) :
  run (async_fn s) =
    let '(c, tr) := run s in
    (match c with
     | Normal => FulfilledUndefined
     | Return r => Fulfilled r
     | Throw e => Rejected e
     end, tr).
Proof. apply run_bind_pure. Qed.

(** A [try]/[catch] whose block and handler never complete normally
    never completes normally. *)
Lemma run_try_catch_not_normal {R} (s : Stmt R) (h : JsError -> Stmt R) :
  fst (run s) <> Normal -> (forall e, fst (run (h e)) <> Normal) ->
  fst (run (try_catch s h)) <> Normal.
Proof.
  rewrite run_try_catch. destruct (run s) as [[| |e] tr]; simpl; [done|done|].
  intros _ Hh. specialize (Hh e). by destruct (run (h e)).
Qed.

End WithClient.

End ProgFacts.
