(* ===== verification/Branch.v ===== *)
(** * Branch: [GeminiBranch] and [fail] (src/src/index.ts)

    - [Types]: [GeminiBranchOptions] and [GeminiBranchResult] (lines 6-23).
      At run time [condition] need not be a string nor [choices] an array
      (the code checks with [typeof] and [Array.isArray]), so their types
      say what the checks can see.
    - [Impl]: [fail] (lines 29-41) and [GeminiBranch] (lines 47-113),
      statement by statement in the monad of [Effects]: the two guards, the
      request, the [await], the reconciliation, the [catch] handler and the
      final [return fail("Unknown error")].
    - [Outcome]: every run of [GeminiBranch] follows one of seven paths
      ([outcome]), proved once.
    - [Properties]: the claims C1-C14, each read off [outcome] by the
      tactic [run_cases], with a witness on a concrete backend. *)

From S2P Require Import Prelude JsString Json Prompt Effects.

Module Types.

(** [args.condition] as [typeof] sees it. *)
Inductive ArgString : Type :=
| AString (s : jsstring)
| ANotString.

(** [args.choices] as [Array.isArray] sees it. *)
Inductive ArgArray : Type :=
| AArray (l : list jsstring)
| ANotArray.

Record GeminiBranchOptions : Type := mkOptions {
  condition : ArgString;
  choices : ArgArray;
  apiKey : jsstring;
  model : jsstring;
  else_ : option jsstring;
  consoleErrors : option bool
}.

Record GeminiBranchResult : Type := mkResult {
  response : bool;
  result : jsstring;
  message : jsstring
}.

#[export] Instance GeminiBranchResult_eq_dec : EqDecision GeminiBranchResult.
Proof. solve_decision. Defined.

End Types.

Module Impl.
Import Js Client Prog Types StringProto ArrayProto Template.
Local Open Scope js_scope.

(** [fail(message, args)] (lines 29-41). *)
Definition fail (message : jsstring) (args : GeminiBranchOptions)
    : Prog GeminiBranchResult :=
  let r := {| response := false; result := args.(else_) ?? []; message := message |} in
  if args.(consoleErrors) ?? false then ConsoleError message (Pure r) else Pure r.

(** The guard of line 50: the condition when it is a string that is not
    blank, [None] when [fail] is returned. *)
Definition checked_condition (c : ArgString) : option jsstring :=
  match c with
  | AString s => if is_blank s then None else Some s
  | ANotString => None
  end.

(** The guard of line 55: the choices when they are a non-empty array. *)
Definition checked_choices (c : ArgArray) : option (list jsstring) :=
  match c with
  | AArray [] => None
  | AArray l => Some l
  | ANotArray => None
  end.

(** The client and the request of lines 60-80. *)
Definition generate_request (args : GeminiBranchOptions) (cond : jsstring)
    (chs : list jsstring) : GenerateRequest :=
  {| req_apiKey := args.(apiKey);
     req_model := args.(model);
     req_contents := contents cond chs args.(else_) |}.

Definition msg_condition : jsstring := lit "condition must be a non-empty string".
Definition msg_choices : jsstring := lit "choices must be a non-empty array".
Definition msg_no_match : jsstring := lit "No matching choice".
Definition msg_success : jsstring := lit "Success".
Definition msg_not_in_choices : jsstring := lit "Response by Gemini is not in choices: ".
Definition msg_api_error : jsstring := lit "Gemini API error: ".
Definition msg_unknown : jsstring := lit "Unknown error".

(** Lines 93-103: the response must be one of the choices. *)
Definition check_choices (args : GeminiBranchOptions) (chs : list jsstring)
    (responsemsg : jsstring) : Stmt GeminiBranchResult :=
  if negb (includes chs responsemsg)
  then return_ (fail (msg_not_in_choices ++ responsemsg) args)
  else Pure (Return {| response := true; result := responsemsg; message := msg_success |}).

(** Lines 84-103: [if (args.else && responsemsg === args.else)], then the
    check against the choices. *)
Definition reconcile (args : GeminiBranchOptions) (chs : list jsstring)
    (responsemsg : jsstring) : Stmt GeminiBranchResult :=
  match args.(else_) with
  | Some e =>
      if truthy_string e && bool_decide (responsemsg = e)
      then Pure (Return {| response := true; result := e; message := msg_no_match |})
      else check_choices args chs responsemsg
  | None => check_choices args chs responsemsg
  end.

(** The [try] block (lines 49-103). *)
Definition try_block (args : GeminiBranchOptions) : Stmt GeminiBranchResult :=
  match checked_condition args.(condition) with
  | None => return_ (fail msg_condition args)
  | Some cond =>
      match checked_choices args.(choices) with
      | None => return_ (fail msg_choices args)
      | Some chs =>
          await_generate (generate_request args cond chs) (fun text =>
            reconcile args chs (trim (text ?? [])))
      end
  end.

(** The [catch] block (lines 105-108): [String(e)] may itself throw. *)
Definition catch_block (args : GeminiBranchOptions) (e : JsError)
    : Stmt GeminiBranchResult :=
  match String_of e with
  | inr s => return_ (fail (msg_api_error ++ s) args)
  | inl thrown => Pure (Throw thrown)
  end.

(** [GeminiBranch(args)] (lines 47-113). *)
Definition GeminiBranch (args : GeminiBranchOptions) : Prog (Settled GeminiBranchResult) :=
  async_fn (seq (try_catch (try_block args) (catch_block args))
                (return_ (fail msg_unknown args))).

End Impl.

(** ** The paths of a run *)

Module Outcome.
Import Js Client Prog ProgFacts Types StringProto ArrayProto Template Impl.
Local Open Scope js_scope.

(** The result [fail(m, args)] returns, and what it writes. *)
Definition fail_result (args : GeminiBranchOptions) (m : jsstring) : GeminiBranchResult :=
  {| response := false; result := args.(else_) ?? []; message := m |}.

Definition fail_log (args : GeminiBranchOptions) (m : jsstring) : list Event :=
  if args.(consoleErrors) ?? false then [EvConsoleError m] else [].

(** The test of line 85 succeeds on the trimmed response [m]. *)
Definition fallback_hit (args : GeminiBranchOptions) (m : jsstring) : Prop :=
  args.(else_) = Some m /\ m <> [].

(** An outcome of the client whose rejection value [String(e)] converts. *)
Definition convertible_outcome (o : GenerateOutcome) : bool :=
  match o with
  | GenResolved _ => true
  | GenRejected e => match String_of e with inr _ => true | inl _ => false end
  end.

(** A client that answers every request the same way. *)
Definition const_client (o : GenerateOutcome) : GeminiClient := fun _ => o.

(** The guards of lines 50 and 55 pass, with the condition [cond] and the
    choices [chs]. *)
Definition guards_pass (args : GeminiBranchOptions) (cond : jsstring)
    (chs : list jsstring) : Prop :=
  checked_condition args.(condition) = Some cond /\
  checked_choices args.(choices) = Some chs.

(** Arguments and clients used by the examples. *)
Definition ex_args (cond : ArgString) (chs : ArgArray) (fallback : option jsstring)
    (log : option bool) : GeminiBranchOptions :=
  {| condition := cond; choices := chs; apiKey := lit "API_KEY";
     model := lit "gemini-2.5-flash"; else_ := fallback; consoleErrors := log |}.

Definition ex_condition : ArgString := AString (lit "Is it raining in Tokyo?").
Definition yes_no : list jsstring := [lit "Yes"; lit "No"].

Definition answering_client (text : jsstring) : GeminiClient :=
  const_client (GenResolved (Some text)).
Definition rejecting_client (e : JsError) : GeminiClient :=
  const_client (GenRejected e).

(** The trace holds no call of the backend. *)
Abbreviation no_generate := (Forall (fun ev => is_generate ev = false)).

Section WithClient.
Context `{GeminiClient}.

(** The eight paths of [GeminiBranch], with the promise's settlement and
    the trace of each. *)
Inductive outcome (args : GeminiBranchOptions)
    : Settled GeminiBranchResult -> list Event -> Prop :=
| out_bad_condition :
    checked_condition args.(condition) = None ->
    outcome args (Fulfilled (fail_result args msg_condition))
      (fail_log args msg_condition)
| out_bad_choices cond :
    checked_condition args.(condition) = Some cond ->
    checked_choices args.(choices) = None ->
    outcome args (Fulfilled (fail_result args msg_choices))
      (fail_log args msg_choices)
| out_api_error cond chs e s :
    checked_condition args.(condition) = Some cond ->
    checked_choices args.(choices) = Some chs ->
    generate (generate_request args cond chs) = GenRejected e ->
    String_of e = inr s ->
    outcome args (Fulfilled (fail_result args (msg_api_error ++ s)))
      (EvGenerate (generate_request args cond chs) ::
         fail_log args (msg_api_error ++ s))
| out_unconvertible cond chs e t :
    checked_condition args.(condition) = Some cond ->
    checked_choices args.(choices) = Some chs ->
    generate (generate_request args cond chs) = GenRejected e ->
    String_of e = inl t ->
    outcome args (Rejected t) [EvGenerate (generate_request args cond chs)]
| out_fallback cond chs text :
    checked_condition args.(condition) = Some cond ->
    checked_choices args.(choices) = Some chs ->
    generate (generate_request args cond chs) = GenResolved text ->
    fallback_hit args (trim (text ?? [])) ->
    outcome args (Fulfilled (mkResult true (trim (text ?? [])) msg_no_match))
      [EvGenerate (generate_request args cond chs)]
| out_not_in_choices cond chs text :
    checked_condition args.(condition) = Some cond ->
    checked_choices args.(choices) = Some chs ->
    generate (generate_request args cond chs) = GenResolved text ->
    ~ fallback_hit args (trim (text ?? [])) ->
    trim (text ?? []) ∉ chs ->
    outcome args
      (Fulfilled (fail_result args (msg_not_in_choices ++ trim (text ?? []))))
      (EvGenerate (generate_request args cond chs) ::
         fail_log args (msg_not_in_choices ++ trim (text ?? [])))
| out_success cond chs text :
    checked_condition args.(condition) = Some cond ->
    checked_choices args.(choices) = Some chs ->
    generate (generate_request args cond chs) = GenResolved text ->
    ~ fallback_hit args (trim (text ?? [])) ->
    trim (text ?? []) ∈ chs ->
    outcome args (Fulfilled (mkResult true (trim (text ?? [])) msg_success))
      [EvGenerate (generate_request args cond chs)].

Lemma run_fail m args : run (fail m args) = (fail_result args m, fail_log args m).
Proof. unfold fail, fail_log. by destruct (consoleErrors args ?? false). Qed.

Lemma run_return_fail m args :
  run (return_ (fail m args)) = (Return (fail_result args m), fail_log args m).
Proof. by rewrite run_return, run_fail. Qed.

Lemma check_choices_run args chs m :
  ((m ∉ chs) /\ run (check_choices args chs m) =
     (Return (fail_result args (msg_not_in_choices ++ m)),
      fail_log args (msg_not_in_choices ++ m))) \/
  (m ∈ chs /\ run (check_choices args chs m) =
     (Return (mkResult true m msg_success), [])).
Proof.
  unfold check_choices. destruct (includes chs m) eqn:Hi; simpl.
  - right. split; [by apply IncludesFacts.includes_spec|done].
  - left. rewrite run_return_fail.
    split; [by apply IncludesFacts.includes_false|done].
Qed.

Lemma reconcile_run args chs m :
  (fallback_hit args m /\
     run (reconcile args chs m) = (Return (mkResult true m msg_no_match), [])) \/
  (~ fallback_hit args m /\ run (reconcile args chs m) = run (check_choices args chs m)).
Proof.
  unfold reconcile, fallback_hit.
  destruct (else_ args) as [e|]; [|right; naive_solver].
  destruct (truthy_string e) eqn:Ht; simpl.
  - destruct (bool_decide_reflect (m = e)) as [->|Hne].
    + left. split; [|done]. split; [done|]. by destruct e.
    + right. naive_solver.
  - right. split; [|done]. intros [[= ->] Hne]. by destruct m.
Qed.

(** Every run of [GeminiBranch] follows one of the paths of [outcome]. *)
Lemma GeminiBranch_outcome args :
  outcome args (fst (run (GeminiBranch args))) (snd (run (GeminiBranch args))).
Proof.
  unfold GeminiBranch. rewrite run_async_fn, run_seq, run_try_catch.
  unfold try_block.
  destruct (checked_condition _) as [cond|] eqn:Hc;
    [|rewrite run_return_fail; by constructor].
  destruct (checked_choices _) as [chs|] eqn:Hch;
    [|rewrite run_return_fail; by econstructor].
  rewrite run_await_generate.
  destruct (generate _) as [text|e] eqn:Hg.
  - destruct (reconcile_run args chs (trim (text ?? []))) as [[Hf ->]|[Hf ->]];
      [simpl; by eapply out_fallback|].
    destruct (check_choices_run args chs (trim (text ?? [])))
      as [[Hn ->]|[Hi ->]]; simpl; econstructor; eauto.
  - unfold catch_block. destruct (String_of e) as [t|s] eqn:He.
    + simpl. by eapply out_unconvertible.
    + rewrite run_return_fail. simpl. by eapply out_api_error.
Qed.

Lemma fail_log_no_generate args m : no_generate (fail_log args m).
Proof. unfold fail_log. destruct (consoleErrors args ?? false); by repeat constructor. Qed.

Lemma checked_choices_Some c chs :
  checked_choices c = Some chs -> c = AArray chs /\ chs <> [].
Proof. destruct c as [[|x l]|]; naive_solver. Qed.

Lemma checked_condition_Some c cond :
  checked_condition c = Some cond -> c = AString cond /\ ~ all_ws cond.
Proof.
  destruct c as [s|]; simpl; [|done].
  destruct (is_blank s) eqn:Hb; [done|]. intros [= <-].
  split; [done|]. rewrite <- TrimFacts.is_blank_spec. by rewrite Hb.
Qed.

Lemma checked_condition_None c :
  checked_condition c = None <->
  c = ANotString \/ exists s, c = AString s /\ all_ws s.
Proof.
  destruct c as [s|]; simpl; [|naive_solver].
  pose proof (TrimFacts.is_blank_spec s).
  destruct (is_blank s); naive_solver.
Qed.

Lemma checked_choices_None c :
  checked_choices c = None <-> c = ANotArray \/ c = AArray [].
Proof. destruct c as [[|x l]|]; naive_solver. Qed.

Lemma elem_of_fail_log args m m' :
  EvConsoleError m' ∈ fail_log args m <-> consoleErrors args = Some true /\ m' = m.
Proof.
  unfold fail_log. destruct (consoleErrors args) as [[]|]; simpl;
    rewrite ?elem_of_cons, ?elem_of_nil; naive_solver.
Qed.

Lemma try_block_not_normal args : fst (run (try_block args)) <> Normal.
Proof.
  unfold try_block.
  destruct (checked_condition _); [|by rewrite run_return_fail].
  destruct (checked_choices _) as [chs|]; [|by rewrite run_return_fail].
  rewrite run_await_generate. destruct (generate _) as [text|e]; [|done].
  destruct (reconcile_run args chs (trim (text ?? []))) as [[_ ->]|[_ ->]]; [done|].
  by destruct (check_choices_run args chs (trim (text ?? []))) as [[_ ->]|[_ ->]].
Qed.

Lemma catch_block_not_normal args e : fst (run (catch_block args e)) <> Normal.
Proof. unfold catch_block. destruct (String_of e); [done|by rewrite run_return_fail]. Qed.

End WithClient.

#[export] Hint Resolve fail_log_no_generate : gemini.
#[export] Hint Resolve Forall_nil_2 : gemini.

(** Case analysis on the path a run of [GeminiBranch args] takes. *)
Ltac run_cases args :=
  let Ho := fresh "Ho" in
  pose proof (GeminiBranch_outcome args) as Ho;
  destruct (run (GeminiBranch args)) as [?st ?tr]; simpl in *;
  destruct Ho; merge_eqs; cbn [String_of] in *; simplify_eq;
  autorewrite with gemini_rw in *; unfold fail_result in *.

End Outcome.

(** ** The contract of GeminiBranch *)

Module Properties.
Import Js Client Prog ProgFacts Types StringProto ArrayProto Template Impl Outcome.
Local Open Scope js_scope.

Section WithClient.
Context `{GeminiClient}.

(** C1 (totality). When every rejection of the client converts to a
    string, the promise of [GeminiBranch] is fulfilled with a result:
    no exception escapes the call and it never settles to [undefined]. *)
Theorem GeminiBranch_fulfils args :
  (forall req, convertible_outcome (generate req) = true) ->
  exists r, fst (run (GeminiBranch args)) = Fulfilled r.
Proof.
  intros Hc. run_cases args; eauto.
  exfalso. specialize (Hc (generate_request args cond chs)).
  unfold convertible_outcome in Hc. rewrite_eqs_in Hc. discriminate.
Qed.

(** C2 (membership). A successful result selects one of the caller's
    choices or the configured fallback, never another string. *)
Theorem GeminiBranch_success_member args r :
  fst (run (GeminiBranch args)) = Fulfilled r -> response r = true ->
  exists chs, choices args = AArray chs /\
    (result r ∈ chs \/ else_ args = Some (result r)).
Proof.
  intros Hr Ht. run_cases args; simplify_eq/=; try done;
    (eexists; split; [by eapply checked_choices_Some|]);
    unfold fallback_hit in *; naive_solver.
Qed.

(** C3 (failure shape). A failed result carries [else ?? ""] and a
    message that is not empty. *)
Theorem GeminiBranch_failure_shape args r :
  fst (run (GeminiBranch args)) = Fulfilled r -> response r = false ->
  result r = else_ args ?? [] /\ message r <> [].
Proof.
  intros Hr Hf. run_cases args; simplify_eq/=; split; try done;
    by apply app_nil_inv_l_ne.
Qed.

(** C4 (fast failure on the condition). A condition that is not a
    string, or is only white space, fails with "condition must be a
    non-empty string" and the backend is never called. *)
Theorem GeminiBranch_invalid_condition args :
  (condition args = ANotString \/
   exists s, condition args = AString s /\ all_ws s) ->
  fst (run (GeminiBranch args)) =
    Fulfilled (mkResult false (else_ args ?? []) msg_condition) /\
  no_generate (snd (run (GeminiBranch args))).
Proof.
  intros Hc%checked_condition_None.
  run_cases args; simplify_eq/=; auto with gemini.
Qed.

(** C5 (fast failure on the choices). With a valid condition, choices
    that are not an array, or an empty array, fail with "choices must be
    a non-empty array" and the backend is never called. *)
Theorem GeminiBranch_invalid_choices args cond :
  checked_condition (condition args) = Some cond ->
  (choices args = ANotArray \/ choices args = AArray []) ->
  fst (run (GeminiBranch args)) =
    Fulfilled (mkResult false (else_ args ?? []) msg_choices) /\
  no_generate (snd (run (GeminiBranch args))).
Proof.
  intros Hc Hch.
  assert (checked_choices (choices args) = None) by (destruct Hch as [-> | ->]; done).
  run_cases args; simplify_eq/=; auto with gemini.
Qed.

(** C6 (exact match after trimming). A response that is a choice padded
    with white space selects that choice, with the message "Success"
    and exactly one backend call. *)
Theorem GeminiBranch_exact_match args cond chs pre c suf :
  guards_pass args cond chs ->
  generate (generate_request args cond chs) = GenResolved (Some (pre ++ c ++ suf)) ->
  all_ws pre -> all_ws suf -> trimmed c -> c ∈ chs -> else_ args <> Some c ->
  run (GeminiBranch args) =
    (Fulfilled (mkResult true c msg_success), [EvGenerate (generate_request args cond chs)]).
Proof.
  intros [Hc Hch] Hg Hpre Hsuf Ht Hin Hne.
  assert (trim (pre ++ c ++ suf) = c) as Htr
    by (rewrite TrimFacts.trim_pad by done; by apply TrimFacts.trim_trimmed).
  run_cases args; rewrite ?Htr in *; unfold fallback_hit in *; naive_solver.
Qed.

(** C7 (fallback precedence). When the trimmed response equals a
    non-empty fallback, the result is that fallback with the message "No
    matching choice", even when the fallback is also one of the
    choices. *)
Theorem GeminiBranch_fallback_precedence args cond chs text e :
  guards_pass args cond chs ->
  generate (generate_request args cond chs) = GenResolved text ->
  else_ args = Some e -> e <> [] -> trim (text ?? []) = e ->
  run (GeminiBranch args) =
    (Fulfilled (mkResult true e msg_no_match), [EvGenerate (generate_request args cond chs)]).
Proof.
  intros [Hc Hch] Hg He Hne Ht.
  run_cases args; unfold fallback_hit in *; naive_solver.
Qed.

(** C8 (invalid response). A trimmed response that is neither a choice
    nor the fallback fails, and the message quotes the response. *)
Theorem GeminiBranch_not_in_choices args cond chs text :
  guards_pass args cond chs ->
  generate (generate_request args cond chs) = GenResolved text ->
  trim (text ?? []) ∉ chs -> else_ args <> Some (trim (text ?? [])) ->
  fst (run (GeminiBranch args)) =
    Fulfilled (mkResult false (else_ args ?? []) (msg_not_in_choices ++ trim (text ?? []))).
Proof.
  intros [Hc Hch] Hg Hnin Hne.
  run_cases args; unfold fallback_hit in *; naive_solver.
Qed.

(** C9 (backend failure). When the client rejects with a value whose
    string is [s], the result is a failure with the message "Gemini API
    error: " followed by [s], after exactly one backend call. *)
Theorem GeminiBranch_backend_error args cond chs s :
  guards_pass args cond chs ->
  generate (generate_request args cond chs) = GenRejected (ErrValue s) ->
  run (GeminiBranch args) =
    (Fulfilled (mkResult false (else_ args ?? []) (msg_api_error ++ s)),
     EvGenerate (generate_request args cond chs) :: fail_log args (msg_api_error ++ s)).
Proof.
  intros [Hc Hch] Hg. run_cases args; done.
Qed.

(** C10 (no fall-through). The [try]/[catch] of lines 48-108 never
    completes normally, so the final [return fail("Unknown error")] of
    line 112 is unreachable. *)
Theorem try_catch_never_normal args :
  fst (run (try_catch (try_block args) (catch_block args))) <> Normal.
Proof.
  apply run_try_catch_not_normal;
    [apply try_block_not_normal|apply catch_block_not_normal].
Qed.

(** C11 (diagnostics). [console.error] receives a message exactly when
    [consoleErrors] is [true] and the call fails with that message; a
    successful call writes nothing. *)
Theorem GeminiBranch_diagnostics args m :
  EvConsoleError m ∈ snd (run (GeminiBranch args)) <->
  consoleErrors args = Some true /\
  exists r, fst (run (GeminiBranch args)) = Fulfilled r /\
            response r = false /\ message r = m.
Proof.
  run_cases args; rewrite ?elem_of_cons, ?elem_of_fail_log, ?elem_of_nil;
    naive_solver.
Qed.

(** C12 (one backend round trip). Once the guards pass, the first event
    is the one call of the backend, with the key, the model and the
    composed prompt, and no other call follows. *)
Theorem GeminiBranch_single_request args cond chs :
  guards_pass args cond chs ->
  exists tr, snd (run (GeminiBranch args)) =
             EvGenerate (generate_request args cond chs) :: tr /\ no_generate tr.
Proof.
  intros [Hc Hch]. run_cases args; eexists; split; try reflexivity; auto with gemini.
Qed.

(** C13 (an empty fallback is never matched). With [else: ""], a
    response that trims to the empty string, which the prompt asks for
    when nothing matches, is reported as a failure, not as the fallback:
    [""] is falsy in the test of line 85. *)
Theorem GeminiBranch_empty_fallback_fails args cond chs text :
  guards_pass args cond chs -> else_ args = Some [] ->
  generate (generate_request args cond chs) = GenResolved text ->
  trim (text ?? []) = [] -> [] ∉ chs ->
  fst (run (GeminiBranch args)) = Fulfilled (mkResult false [] msg_not_in_choices).
Proof.
  intros [Hc Hch] He Hg Ht Hn.
  run_cases args; rewrite ?Ht, ?He, ?app_nil_r in *; unfold fallback_hit in *;
    naive_solver.
Qed.

(** C14 (a rejection that does not convert escapes). When the client
    rejects with a value whose [String(e)] throws, the [catch] handler
    throws in turn and the promise of [GeminiBranch] rejects. *)
Theorem GeminiBranch_unconvertible_rejects args cond chs t :
  guards_pass args cond chs ->
  generate (generate_request args cond chs) = GenRejected (ErrUnconvertible t) ->
  run (GeminiBranch args) = (Rejected t, [EvGenerate (generate_request args cond chs)]).
Proof. intros [Hc Hch] Hg. run_cases args; done. Qed.

End WithClient.

(** ** Witnesses: the theorems applied at concrete inputs *)

Lemma GeminiBranch_fulfils_witness :
  (forall req, convertible_outcome
     (@generate (rejecting_client (ErrValue (lit "503 Service Unavailable"))) req) = true) /\
  exists r, fst (@run (rejecting_client (ErrValue (lit "503 Service Unavailable"))) _
                   (GeminiBranch (ex_args ex_condition (AArray yes_no) None None)))
            = Fulfilled r.
Proof.
  split; [intros; reflexivity|].
  apply (@GeminiBranch_fulfils (rejecting_client (ErrValue (lit "503 Service Unavailable")))).
  intros; reflexivity.
Defined.

Lemma GeminiBranch_success_member_witness :
  fst (@run (answering_client (lit "  Yes  ")) _
         (GeminiBranch (ex_args ex_condition (AArray yes_no) None None)))
    = Fulfilled (mkResult true (lit "Yes") msg_success) /\
  exists chs, choices (ex_args ex_condition (AArray yes_no) None None) = AArray chs /\
    (lit "Yes" ∈ chs \/ else_ (ex_args ex_condition (AArray yes_no) None None) = Some (lit "Yes")).
Proof.
  split; [reflexivity|].
  apply (@GeminiBranch_success_member (answering_client (lit "  Yes  "))
           (ex_args ex_condition (AArray yes_no) None None)
           (mkResult true (lit "Yes") msg_success)); reflexivity.
Defined.

Lemma GeminiBranch_failure_shape_witness :
  let r := mkResult false (lit "Unknown") (msg_not_in_choices ++ lit "Maybe") in
  fst (@run (answering_client (lit "Maybe")) _
         (GeminiBranch (ex_args ex_condition (AArray yes_no) (Some (lit "Unknown")) None)))
    = Fulfilled r /\
  result r = lit "Unknown" /\ message r <> [].
Proof.
  split; [reflexivity|].
  apply (@GeminiBranch_failure_shape (answering_client (lit "Maybe"))
           (ex_args ex_condition (AArray yes_no) (Some (lit "Unknown")) None)); reflexivity.
Defined.

Lemma GeminiBranch_invalid_condition_witness :
  (condition (ex_args (AString (lit "   ")) (AArray yes_no) None (Some true)) = ANotString \/
   exists s, condition (ex_args (AString (lit "   ")) (AArray yes_no) None (Some true)) = AString s
             /\ all_ws s) /\
  fst (@run (answering_client (lit "Yes")) _
         (GeminiBranch (ex_args (AString (lit "   ")) (AArray yes_no) None (Some true))))
    = Fulfilled (mkResult false [] msg_condition) /\
  no_generate (snd (@run (answering_client (lit "Yes")) _
         (GeminiBranch (ex_args (AString (lit "   ")) (AArray yes_no) None (Some true))))).
Proof.
  assert (Hc : condition (ex_args (AString (lit "   ")) (AArray yes_no) None (Some true)) = ANotString \/
   exists s, condition (ex_args (AString (lit "   ")) (AArray yes_no) None (Some true)) = AString s
             /\ all_ws s) by (right; eexists; split; [reflexivity|repeat constructor]).
  split; [exact Hc|].
  exact (@GeminiBranch_invalid_condition (answering_client (lit "Yes")) _ Hc).
Defined.

Lemma GeminiBranch_invalid_choices_witness :
  checked_condition (condition (ex_args ex_condition ANotArray None None)) =
    Some (lit "Is it raining in Tokyo?") /\
  fst (@run (answering_client (lit "Yes")) _
         (GeminiBranch (ex_args ex_condition ANotArray None None)))
    = Fulfilled (mkResult false [] msg_choices) /\
  no_generate (snd (@run (answering_client (lit "Yes")) _
         (GeminiBranch (ex_args ex_condition ANotArray None None)))).
Proof.
  split; [reflexivity|].
  apply (@GeminiBranch_invalid_choices (answering_client (lit "Yes"))
           (ex_args ex_condition ANotArray None None)
           (lit "Is it raining in Tokyo?")); [reflexivity|by left].
Defined.

Lemma GeminiBranch_exact_match_witness :
  let args := ex_args ex_condition (AArray yes_no) None None in
  guards_pass args (lit "Is it raining in Tokyo?") yes_no /\
  @run (answering_client (lit "  Yes  ")) _ (GeminiBranch args) =
    (Fulfilled (mkResult true (lit "Yes") msg_success),
     [EvGenerate (generate_request args (lit "Is it raining in Tokyo?") yes_no)]).
Proof.
  intros args. split; [split; reflexivity|].
  apply (@GeminiBranch_exact_match (answering_client (lit "  Yes  ")) args (lit "Is it raining in Tokyo?") yes_no
           (lit "  ") (lit "Yes") (lit "  ")).
  - split; reflexivity.
  - reflexivity.
  - repeat constructor.
  - repeat constructor.
  - split; intros ? [= <-]; reflexivity.
  - constructor.
  - discriminate.
Defined.

Lemma GeminiBranch_fallback_precedence_witness :
  let args := ex_args ex_condition (AArray [lit "A"; lit "B"]) (Some (lit "A")) None in
  guards_pass args (lit "Is it raining in Tokyo?") [lit "A"; lit "B"] /\
  @run (answering_client (lit "A")) _ (GeminiBranch args) =
    (Fulfilled (mkResult true (lit "A") msg_no_match),
     [EvGenerate (generate_request args (lit "Is it raining in Tokyo?") [lit "A"; lit "B"])]).
Proof.
  intros args. split; [split; reflexivity|].
  apply (@GeminiBranch_fallback_precedence (answering_client (lit "A")) args (lit "Is it raining in Tokyo?") [lit "A"; lit "B"]
           (Some (lit "A"))); try reflexivity; [split; reflexivity|discriminate].
Defined.

Lemma GeminiBranch_not_in_choices_witness :
  let args := ex_args ex_condition (AArray [lit "X"; lit "Y"]) None None in
  guards_pass args (lit "Is it raining in Tokyo?") [lit "X"; lit "Y"] /\
  fst (@run (answering_client (lit "Z")) _ (GeminiBranch args)) =
    Fulfilled (mkResult false [] (msg_not_in_choices ++ lit "Z")).
Proof.
  intros args. split; [split; reflexivity|].
  apply (@GeminiBranch_not_in_choices (answering_client (lit "Z")) args (lit "Is it raining in Tokyo?")
           [lit "X"; lit "Y"] (Some (lit "Z"))).
  - split; reflexivity.
  - reflexivity.
  - by apply IncludesFacts.includes_false.
  - discriminate.
Defined.

Lemma GeminiBranch_backend_error_witness :
  let args := ex_args ex_condition (AArray yes_no) None (Some true) in
  guards_pass args (lit "Is it raining in Tokyo?") yes_no /\
  @run (rejecting_client (ErrValue (lit "quota exceeded"))) _ (GeminiBranch args) =
    (Fulfilled (mkResult false [] (msg_api_error ++ lit "quota exceeded")),
     [EvGenerate (generate_request args (lit "Is it raining in Tokyo?") yes_no);
      EvConsoleError (msg_api_error ++ lit "quota exceeded")]).
Proof.
  intros args. split; [split; reflexivity|].
  apply (@GeminiBranch_backend_error (rejecting_client (ErrValue (lit "quota exceeded"))) args);
    [split; reflexivity|reflexivity].
Defined.

Lemma GeminiBranch_single_request_witness :
  let args := ex_args ex_condition (AArray yes_no) None (Some true) in
  guards_pass args (lit "Is it raining in Tokyo?") yes_no /\
  exists tr, snd (@run (answering_client (lit "Perhaps")) _ (GeminiBranch args)) =
    EvGenerate (generate_request args (lit "Is it raining in Tokyo?") yes_no) :: tr /\
    no_generate tr.
Proof.
  intros args. split; [split; reflexivity|].
  apply (@GeminiBranch_single_request (answering_client (lit "Perhaps")) args).
  split; reflexivity.
Defined.

Lemma GeminiBranch_empty_fallback_fails_witness :
  let args := ex_args ex_condition (AArray yes_no) (Some []) None in
  guards_pass args (lit "Is it raining in Tokyo?") yes_no /\
  fst (@run (answering_client (lit "  ")) _ (GeminiBranch args)) =
    Fulfilled (mkResult false [] msg_not_in_choices).
Proof.
  intros args. split; [split; reflexivity|].
  apply (@GeminiBranch_empty_fallback_fails (answering_client (lit "  ")) args (lit "Is it raining in Tokyo?") yes_no
           (Some (lit "  "))); try reflexivity.
  - split; reflexivity.
  - by apply IncludesFacts.includes_false.
Defined.

Lemma GeminiBranch_unconvertible_rejects_witness :
  let args := ex_args ex_condition (AArray yes_no) None (Some true) in
  guards_pass args (lit "Is it raining in Tokyo?") yes_no /\
  @run (rejecting_client (ErrUnconvertible (ErrValue (lit "TypeError")))) _
       (GeminiBranch args) =
    (Rejected (ErrValue (lit "TypeError")),
     [EvGenerate (generate_request args (lit "Is it raining in Tokyo?") yes_no)]).
Proof.
  intros args. split; [split; reflexivity|].
  apply (@GeminiBranch_unconvertible_rejects
           (rejecting_client (ErrUnconvertible (ErrValue (lit "TypeError")))));
    [split; reflexivity|reflexivity].
Defined.

End Properties.
