(* ===== verification/Contract.v ===== *)
(** * Contract: the decision contract of the specification, and refinement

    The specification describes GeminiBranch as a state machine with three
    terminal outcomes in strict priority order: [Start -> Validate ->
    Fail(invalid input) | Compose and Invoke -> Fail(backend error) |
    Reconcile -> Success(fallback) | Success(choice) | Fail(invalid
    response)].

    - [SpecMachine]: that machine as a step relation [spec_step] over
      [stage], for one call with given arguments and client, its
      reflexive-transitive closure [spec_star], and its properties proved by
      rule induction: it is deterministic, [Done] is final, and every
      result it reaches keeps the membership and failure-shape invariants.
      The fallback branch is the specification's: a configured fallback
      equal to the trimmed response.
    - [Refinement]: [GeminiBranch] computes exactly the result the machine
      reaches, for every client whose rejections convert to strings and
      every fallback but the empty string, where the code's truthiness test
      departs from the specification. *)

From S2P Require Import Prelude JsString Json Prompt Effects Branch.

Module SpecMachine.
Import Js Client Prog Types StringProto Impl Outcome.
Local Open Scope js_scope.

(** The stages of one call. *)
Inductive stage : Type :=
| Start
| Validated (cond : jsstring) (chs : list jsstring)
| Invoked (chs : list jsstring) (response : jsstring)
| Done (r : GeminiBranchResult).

(** The failure result of the specification: [selected = fallback ?? ""]. *)
Definition failure (args : GeminiBranchOptions) (m : jsstring) : GeminiBranchResult :=
  mkResult false (else_ args ?? []) m.

Section Machine.
Context `{GeminiClient} (args : GeminiBranchOptions).

Inductive spec_step : stage -> stage -> Prop :=
| step_invalid_condition :
    (forall cond, condition args = AString cond -> all_ws cond) ->
    spec_step Start (Done (failure args msg_condition))
| step_invalid_choices cond :
    condition args = AString cond -> ~ all_ws cond ->
    (forall chs, choices args = AArray chs -> chs = []) ->
    spec_step Start (Done (failure args msg_choices))
| step_validate cond chs :
    condition args = AString cond -> ~ all_ws cond ->
    choices args = AArray chs -> chs <> [] ->
    spec_step Start (Validated cond chs)
| step_backend_error cond chs e s :
    generate (generate_request args cond chs) = GenRejected e -> String_of e = inr s ->
    spec_step (Validated cond chs) (Done (failure args (msg_api_error ++ s)))
| step_invoke cond chs text :
    generate (generate_request args cond chs) = GenResolved text ->
    spec_step (Validated cond chs) (Invoked chs (trim (text ?? [])))
| step_fallback chs m :
    else_ args = Some m ->
    spec_step (Invoked chs m) (Done (mkResult true m msg_no_match))
| step_choice chs m :
    else_ args <> Some m -> m ∈ chs ->
    spec_step (Invoked chs m) (Done (mkResult true m msg_success))
| step_invalid_response chs m :
    else_ args <> Some m -> m ∉ chs ->
    spec_step (Invoked chs m) (Done (failure args (msg_not_in_choices ++ m))).

Inductive spec_star : stage -> stage -> Prop :=
| star_refl s : spec_star s s
| star_step s1 s2 s3 : spec_step s1 s2 -> spec_star s2 s3 -> spec_star s1 s3.

End Machine.

End SpecMachine.

(** ** The machine: determinism and final stages *)

Module SpecFacts.
Import Js Client Prog Types StringProto Impl Outcome SpecMachine.
Local Open Scope js_scope.

Section WithClient.
Context `{GeminiClient} (args : GeminiBranchOptions).

Lemma spec_step_deterministic s s1 s2 :
  spec_step args s s1 -> spec_step args s s2 -> s1 = s2.
Proof.
  intros H1 H2. destruct H1; inversion H2; subst; merge_eqs; naive_solver.
Qed.

Lemma spec_done_final r s : ~ spec_step args (Done r) s.
Proof. inversion 1. Qed.

(** The machine reaches at most one final result. *)
Lemma spec_star_done_unique s r1 r2 :
  spec_star args s (Done r1) -> spec_star args s (Done r2) -> r1 = r2.
Proof.
  intros Hs1. remember (Done r1) as d eqn:Hd. revert r2.
  induction Hs1 as [s|s1 s2 s3 Hst Hs23 IH]; intros r2 Hs2; subst.
  - inversion Hs2 as [|? ? ? Hst]; [done|]. by apply spec_done_final in Hst.
  - inversion Hs2 as [? Heq|? s2' ? Hst' Hs2']; subst.
    + by apply spec_done_final in Hst.
    + rewrite (spec_step_deterministic _ _ _ Hst Hst') in IH. by apply IH.
Qed.

Lemma star_one s1 s2 : spec_step args s1 s2 -> spec_star args s1 s2.
Proof. intros. eapply star_step; [done|apply star_refl]. Qed.

(** The checks of lines 49-57 passing is the validation step. *)
Lemma star_validated cond chs s :
  checked_condition (condition args) = Some cond ->
  checked_choices (choices args) = Some chs ->
  spec_star args (Validated cond chs) s -> spec_star args Start s.
Proof.
  intros Hc Hch Hs.
  apply checked_condition_Some in Hc as [? ?].
  apply checked_choices_Some in Hch as [? ?].
  eapply star_step; [eapply step_validate|]; eauto.
Qed.

Lemma star_invoked cond chs text s :
  generate (generate_request args cond chs) = GenResolved text ->
  spec_star args (Invoked chs (trim (text ?? []))) s ->
  spec_star args (Validated cond chs) s.
Proof. intros. eapply star_step; [eapply step_invoke|]; eauto. Qed.

(** Outside the empty fallback, the code's test of line 85 is the
    specification's. *)
Lemma fallback_hit_spec m :
  else_ args <> Some [] -> fallback_hit args m <-> else_ args = Some m.
Proof. unfold fallback_hit. naive_solver. Qed.

End WithClient.

#[export] Hint Resolve star_one star_refl : gemini.

End SpecFacts.

(** ** Refinement *)

Module Refinement.
Import Js Client Prog Types StringProto Impl Outcome SpecMachine SpecFacts.
Local Open Scope js_scope.

Section WithClient.
Context `{GeminiClient}.

(** Every run of [GeminiBranch] on a convertible client fulfils with the
    result the machine reaches. *)
Lemma GeminiBranch_spec_path args :
  else_ args <> Some [] ->
  (forall req, convertible_outcome (generate req) = true) ->
  exists r, fst (run (GeminiBranch args)) = Fulfilled r /\ spec_star args Start (Done r).
Proof.
  intros He Hc. pose proof (GeminiBranch_outcome args) as Ho.
  destruct (run (GeminiBranch args)) as [st tr]; simpl in *.
  destruct Ho as [Hcd|cond Hcd Hch|cond chs e s Hcd Hch Hg Hs|cond chs e t Hcd Hch Hg Ht
                 |cond chs text Hcd Hch Hg Hf|cond chs text Hcd Hch Hg Hf Hn
                 |cond chs text Hcd Hch Hg Hf Hi].
  - eexists; split; [done|]. apply star_one, step_invalid_condition.
    apply checked_condition_None in Hcd.
    intros c Hc'. rewrite Hc' in Hcd. naive_solver.
  - apply checked_condition_Some in Hcd as [? ?].
    eexists; split; [done|]. apply star_one. eapply step_invalid_choices; eauto.
    apply checked_choices_None in Hch.
    intros l Hl. rewrite Hl in Hch. naive_solver.
  - eexists; split; [done|]. eapply star_validated; eauto.
    apply star_one. by eapply step_backend_error.
  - exfalso. specialize (Hc (generate_request args cond chs)).
    unfold convertible_outcome in Hc. rewrite Hg, Ht in Hc. discriminate.
  - eexists; split; [done|]. eapply star_validated, star_invoked; eauto.
    apply star_one, step_fallback. by destruct Hf.
  - eexists; split; [done|]. eapply star_validated, star_invoked; eauto.
    apply star_one, step_invalid_response; [|done].
    by rewrite <- (fallback_hit_spec args _ He).
  - eexists; split; [done|]. eapply star_validated, star_invoked; eauto.
    apply star_one, step_choice; [|done].
    by rewrite <- (fallback_hit_spec args _ He).
Qed.

(** C15 (refinement of the decision contract). For every backend whose
    rejections convert to strings and every fallback but the empty string,
    the promise of [GeminiBranch] fulfils with [r] exactly when the
    specification's state machine, run from [Start] on the same arguments
    and backend, ends in [Done r]. *)
Theorem GeminiBranch_refines_spec args r :
  else_ args <> Some [] ->
  (forall req, convertible_outcome (generate req) = true) ->
  fst (run (GeminiBranch args)) = Fulfilled r <-> spec_star args Start (Done r).
Proof.
  intros He Hc. destruct (GeminiBranch_spec_path args He Hc) as (r' & -> & Hs).
  split; [by intros [= <-]|].
  intros Hs'. f_equal. by eapply spec_star_done_unique.
Qed.

End WithClient.

Lemma GeminiBranch_refines_spec_witness :
  else_ (ex_args ex_condition (AArray yes_no) (Some (lit "Unknown")) None) <> Some [] /\
  (forall req, convertible_outcome (@generate (answering_client (lit "  Yes  ")) req) = true) /\
  (fst (@run (answering_client (lit "  Yes  ")) _
          (GeminiBranch (ex_args ex_condition (AArray yes_no) (Some (lit "Unknown")) None)))
     = Fulfilled (mkResult true (lit "Yes") msg_success) <->
   @spec_star (answering_client (lit "  Yes  "))
     (ex_args ex_condition (AArray yes_no) (Some (lit "Unknown")) None)
     Start (Done (mkResult true (lit "Yes") msg_success))).
Proof.
  split; [discriminate|]. split; [intros; reflexivity|].
  apply (@GeminiBranch_refines_spec (answering_client (lit "  Yes  "))
           (ex_args ex_condition (AArray yes_no) (Some (lit "Unknown")) None)).
  - discriminate.
  - intros; reflexivity.
Defined.

End Refinement.
